(** * CD-events cloud events for Tekton runs

    A shallow embedding of
    [cloudevents/pkg/reconciler/events/cloudevent/cloudevent.go]:
    the classification of a run's [Succeeded] condition ([getEventType]),
    the payload ([getEventData]), the assembly of the cloud event
    ([eventForObjectWithCondition]) and its non-blocking dispatch
    ([SendCloudEventWithRetries]).

    Go strings are [string], the [map[string]string] payload is a
    [gmap string string], a function returning [(T, error)] returns
    [Result T], and the goroutine of [SendCloudEventWithRetries] is a
    small machine stepping next to its blocked caller. *)

From Stdlib Require Import String List.
From stdpp Require Import base gmap strings.
Import ListNotations.

Local Open Scope string_scope.

(** ** Errors and results *)

(** The dynamic type behind the [objectWithCondition] interface, as the
    type switches of the package see it.  [OtherRun] stands for every
    implementation that is neither [*v1beta1.TaskRun] nor
    [*v1beta1.PipelineRun]; it carries the name [%T] prints. *)
Inductive RunType : Type :=
| TaskRun
| PipelineRun
| OtherRun (typeName : string).

(** The errors the package returns.  Each constructor is one
    [fmt.Errorf]/[errors.New] site, or an error handed up from a library
    call, and keeps the values formatted into the message. *)
Inductive Error : Type :=
| MissingCondition (T : RunType)
    (* "no condition for ConditionSucceeded in %T" *)
| UnrecognizedReason (reason : string)
    (* "unknown status with unknown reason %s" *)
| UnknownConditionState (T : RunType) (status : string)
    (* "unknown condition for in %T.Status %s" *)
| SerializationError (text : string)
    (* the error of json.Marshal *)
| EventCreationError (text : string)
    (* the error of cdeevents.Create...Event *)
| UnsupportedObjectType
    (* "input object does not satisfy objectWithCondition" *)
| NoTransportConfigured.
    (* "no cloud events client found in the context" *)

(** [(T, error)]: either the value, or the error with a nil value. *)
Inductive Result (A : Type) : Type :=
| Ok (a : A)
| Err (e : Error).
Arguments Ok {A} a.
Arguments Err {A} e.

Definition bind {A B : Type} (r : Result A) (k : A -> Result B) : Result B :=
  match r with
  | Ok a => k a
  | Err e => Err e
  end.

Notation "'let?' x ':=' r 'in' k" := (bind r (fun x => k))
  (at level 10, x name, r at level 100, k at level 200).

(** ** Statuses, conditions and run objects *)

(** [type EventStatus string] and its three constants. *)
Definition EventStatus : Type := string.
Definition StatusRunning : EventStatus := "Running".
Definition StatusFinished : EventStatus := "Finished".
Definition StatusError : EventStatus := "Error".

(** [cdeevents.CDEventType]: the event types of the CD-events SDK this
    package uses, by name.  The SDK type is a string type; [NoEventType]
    is its zero value, the one a fresh [EventType{}] holds. *)
Inductive CDEventType : Type :=
| NoEventType
| TaskRunStartedEventV1
| TaskRunFinishedEventV1
| PipelineRunQueuedEventV1
| PipelineRunStartedEventV1
| PipelineRunFinishedEventV1.

(** [corev1.ConditionStatus] is a string type; these are its three
    constants in the Kubernetes API. *)
Definition ConditionTrue : string := "True".
Definition ConditionFalse : string := "False".
Definition ConditionUnknown : string := "Unknown".

(** [apis.ConditionSucceeded]. *)
Definition ConditionSucceeded : string := "Succeeded".

(** [apis.Condition], with the fields the package reads. *)
Record Condition : Type := {
  CondType : string;
  Status : string;
  Reason : string
}.

Definition IsTrue (c : Condition) : bool := String.eqb (Status c) ConditionTrue.
Definition IsFalse (c : Condition) : bool := String.eqb (Status c) ConditionFalse.
Definition IsUnknown (c : Condition) : bool := String.eqb (Status c) ConditionUnknown.

(** [GetCondition]: the first condition of the requested type, nil when
    there is none. *)
Fixpoint GetCondition (t : string) (conds : list Condition) : option Condition :=
  match conds with
  | [] => None
  | c :: rest => if String.eqb (CondType c) t then Some c else GetCondition t rest
  end.

(** Modelled from the spec: the reason codes [v1beta1.TaskRunReasonStarted],
    [v1beta1.TaskRunReasonRunning], [v1beta1.PipelineRunReasonStarted] and
    [v1beta1.PipelineRunReasonRunning] are declared in the Tekton API
    package; their [String()] values are the reason codes "Started" and
    "Running" of the specification. *)
Definition TaskRunReasonStarted : string := "Started".
Definition TaskRunReasonRunning : string := "Running".
Definition PipelineRunReasonStarted : string := "Started".
Definition PipelineRunReasonRunning : string := "Running".

Record ObjectMeta : Type := {
  UID : string;
  Name : string;
  Namespace : string;
  SelfLink : string
}.

Record GroupVersionKind : Type := {
  Group : string;
  Version : string;
  Kind : string
}.

(** A value behind the [objectWithCondition] interface: its dynamic type,
    what [GetObjectMeta], [GetObjectKind().GroupVersionKind()] and
    [GetStatusCondition] return, and the rest of the object ([Spec]),
    which only serialization looks at. *)
Record objectWithCondition : Type := {
  TypeOf : RunType;
  GetObjectMeta : ObjectMeta;
  GetGroupVersionKind : GroupVersionKind;
  GetStatusCondition : list Condition;
  Spec : string
}.

(** Supported kinds: the two cases of every type switch. *)
Definition supported (T : RunType) : bool :=
  match T with
  | TaskRun | PipelineRun => true
  | OtherRun _ => false
  end.

(** ** The event type *)

Record EventType : Type := {
  Type_ : CDEventType;
  EStatus : EventStatus
}.

Definition emptyEventType : EventType := {| Type_ := NoEventType; EStatus := "" |}.

Definition setStatus (s : EventStatus) (e : EventType) : EventType :=
  {| Type_ := Type_ e; EStatus := s |}.

Definition setType (t : CDEventType) (e : EventType) : EventType :=
  {| Type_ := t; EStatus := EStatus e |}.

(** [getEventType] returns the event type and status. *)
Definition getEventType (runObject : objectWithCondition) : Result EventType :=
  match GetCondition ConditionSucceeded (GetStatusCondition runObject) with
  | None => Err (MissingCondition (TypeOf runObject))
  | Some c =>
    let eventType := emptyEventType in
    if IsUnknown c then
      let eventType := setStatus StatusRunning eventType in
      match TypeOf runObject with
      | TaskRun =>
        if String.eqb (Reason c) TaskRunReasonStarted then
          Ok (setType TaskRunStartedEventV1 eventType)
        else if String.eqb (Reason c) TaskRunReasonRunning then
          Ok (setType TaskRunStartedEventV1 eventType)
        else Err (UnrecognizedReason (Reason c))
      | PipelineRun =>
        if String.eqb (Reason c) PipelineRunReasonStarted then
          Ok (setType PipelineRunQueuedEventV1 eventType)
        else if String.eqb (Reason c) PipelineRunReasonRunning then
          Ok (setType PipelineRunStartedEventV1 eventType)
        else Err (UnrecognizedReason (Reason c))
      | OtherRun _ => Ok eventType
      end
    else if IsTrue c then
      let eventType := setStatus StatusFinished eventType in
      match TypeOf runObject with
      | TaskRun => Ok (setType TaskRunFinishedEventV1 eventType)
      | PipelineRun => Ok (setType PipelineRunFinishedEventV1 eventType)
      | OtherRun _ => Ok eventType
      end
    else if IsFalse c then
      let eventType := setStatus StatusError eventType in
      match TypeOf runObject with
      | TaskRun => Ok (setType TaskRunFinishedEventV1 eventType)
      | PipelineRun => Ok (setType PipelineRunFinishedEventV1 eventType)
      | OtherRun _ => Ok eventType
      end
    else Err (UnknownConditionState (TypeOf runObject) (Status c))
  end.

(** ** Collaborators outside the package *)

(** [cloudevents.Event] as the package builds it.  The SDK constructors
    are not part of the package: an event is kept as the constructor call
    that made it, with every argument in its own field (parameter names
    as in the SDK), so that what the package hands over can be read
    back.  [ZeroEvent] is the declared, never assigned
    [var event cloudevents.Event]. *)
Inductive CDEvent : Type :=
| ZeroEvent
| TaskRunEvent (eventType : CDEventType)
    (taskRunId taskRunName taskRunPipelineId : string)
    (taskRunData : gmap string string)
| PipelineRunEvent (eventType : CDEventType)
    (pipelineRunId pipelineRunName pipelineRunStatus
     pipelineRunURL pipelineRunErrors : string)
    (pipelineRunData : gmap string string).

Record Event : Type := {
  Created : CDEvent;
  Subject : string;
  Source : string
}.

(** [event.Type()]. *)
Definition EventTypeOf (e : Event) : CDEventType :=
  match Created e with
  | ZeroEvent => NoEventType
  | TaskRunEvent t _ _ _ _ => t
  | PipelineRunEvent t _ _ _ _ _ _ => t
  end.

(** The lifecycle status an event carries: the status argument of its
    constructor, when the constructor has one. *)
Definition EventStatusOf (e : Event) : option string :=
  match Created e with
  | PipelineRunEvent _ _ _ status _ _ _ => Some status
  | _ => None
  end.

(** The payload an event carries. *)
Definition EventDataOf (e : Event) : gmap string string :=
  match Created e with
  | ZeroEvent => ∅
  | TaskRunEvent _ _ _ _ data => data
  | PipelineRunEvent _ _ _ _ _ _ data => data
  end.

Definition SetSubject (s : string) (e : Event) : Event :=
  {| Created := Created e; Subject := s; Source := Source e |}.

Definition SetSource (s : string) (e : Event) : Event :=
  {| Created := Created e; Subject := Subject e; Source := s |}.

(** [protocol.Result]: what [Send] returns; [cloudevents.IsACK] holds of
    [ACK] only, and [NACK] carries the text of [result.Error()]. *)
Inductive protocolResult : Type :=
| ACK
| NACK (text : string).

Definition IsACK (r : protocolResult) : bool :=
  match r with
  | ACK => true
  | NACK _ => false
  end.

(** [result.Error()]. *)
Definition ErrorText (r : protocolResult) : string :=
  match r with
  | ACK => "200"
  | NACK text => text
  end.

(** What [cloudevents.ContextWithRetriesExponentialBackoff] stores in the
    context: the first delay (in milliseconds) and the number of tries. *)
Record RetryParams : Type := {
  Period : nat;
  MaxTries : nat
}.

Definition ContextWithRetriesExponentialBackoff (period maxTries : nat) : RetryParams :=
  {| Period := period; MaxTries := maxTries |}.

(** The cloud events client.  [Send] returns the result the client ends
    with under the retry parameters of its context; [latency] is the
    number of scheduler steps the call stays in flight. *)
Record CEClient : Type := {
  Send : RetryParams -> Event -> protocolResult;
  latency : nat
}.

(** A client that sends through [attempt], once per try (tries are
    numbered from 0), until a try is acknowledged or [MaxTries] tries
    were rejected; it then ends with the last rejection. *)
Fixpoint sendAttempts (attempt : nat -> Event -> protocolResult)
    (tries : nat) (next : nat) (last : protocolResult) (e : Event) : protocolResult :=
  match tries with
  | O => last
  | S tries' =>
    match attempt next e with
    | ACK => ACK
    | NACK text => sendAttempts attempt tries' (S next) (NACK text) e
    end
  end.

Definition retryingClient (attempt : nat -> Event -> protocolResult) (lat : nat) : CEClient :=
  {| Send := fun p e => sendAttempts attempt (MaxTries p) 0 (NACK "no attempt") e;
     latency := lat |}.

(** [record.EventRecorder], by name. *)
Inductive EventRecorder : Type :=
| Recorder (name : string).

(** The values the package looks up in its [context.Context]. *)
Record Context : Type := {
  ceClient : option CEClient;          (* cloudevent.Get(ctx) *)
  eventRecorder : option EventRecorder (* controller.GetEventRecorder(ctx) *)
}.

(** [runtime.Object]: an object that satisfies [objectWithCondition], or
    one that does not. *)
Inductive RuntimeObject : Type :=
| WithCondition (o : objectWithCondition)
| WithoutCondition (typeName : string).

(** [corev1.EventTypeWarning]. *)
Definition EventTypeWarning : string := "Warning".

(** What the goroutine does to the outside, in order. *)
Inductive Effect : Type :=
| Debugf (eventType : CDEventType)
    (* logger.Debugf("Sending cloudevent of type %q", event.Type()) *)
| SendCall (p : RetryParams) (e : Event)
    (* ceClient.Send(...) is called *)
| WarnfFailed (text : string)
    (* logger.Warnf("Failed to send cloudevent: %s", result.Error()) *)
| WarnfNoRecorder
    (* logger.Warnf("No recorder in context, cannot emit error event") *)
| RecorderEvent (r : EventRecorder) (object : RuntimeObject)
    (eventtype reason message : string).
    (* recorder.Event(object, eventtype, reason, message) *)

Definition isRecorderEvent (e : Effect) : bool :=
  match e with
  | RecorderEvent _ _ _ _ _ => true
  | _ => false
  end.

Definition isSendCall (e : Effect) : bool :=
  match e with
  | SendCall _ _ => true
  | _ => false
  end.

(** ** Sample collaborators and objects *)

(** An encoder that always succeeds, one that always fails, and an SDK
    that accepts every event. *)
Definition encodeObject (o : objectWithCondition) : string + string :=
  inl ("json:" +:+ Name (GetObjectMeta o) +:+ ":" +:+ Spec o).

Definition encodeFails (o : objectWithCondition) : string + string :=
  inr "json: unsupported value".

Definition sdkAccepts (c : CDEvent) : option string := None.

Definition sampleMeta : ObjectMeta :=
  {| UID := "uid-1"; Name := "build-1"; Namespace := "ci"; SelfLink := "" |}.


Definition sampleGVK (kind : string) : GroupVersionKind :=
  {| Group := "tekton.dev"; Version := "v1beta1"; Kind := kind |}.

Definition succeededIs (status reason : string) : Condition :=
  {| CondType := ConditionSucceeded; Status := status; Reason := reason |}.

Definition sampleRun (T : RunType) (kind : string) (conds : list Condition) : objectWithCondition :=
  {| TypeOf := T; GetObjectMeta := sampleMeta; GetGroupVersionKind := sampleGVK kind;
     GetStatusCondition := conds; Spec := "steps" |}.

Definition sampleTaskRun (status reason : string) : objectWithCondition :=
  sampleRun TaskRun "TaskRun" [succeededIs status reason].

Definition samplePipelineRun (status reason : string) : objectWithCondition :=
  sampleRun PipelineRun "PipelineRun" [succeededIs status reason].

Definition sampleOtherRun (status reason : string) : objectWithCondition :=
  sampleRun (OtherRun "*v1alpha1.Run") "Run" [succeededIs status reason].


(** A transport that rejects every attempt, one that acknowledges the
    first, and contexts around them. *)
Definition alwaysRejects (n : nat) (e : Event) : protocolResult := NACK "503 unavailable".

Definition alwaysAcks (n : nat) (e : Event) : protocolResult := ACK.

Definition rejectingContext (lat : nat) (r : option EventRecorder) : Context :=
  {| ceClient := Some (retryingClient alwaysRejects lat); eventRecorder := r |}.

Definition ackingContext (lat : nat) : Context :=
  {| ceClient := Some (retryingClient alwaysAcks lat);
     eventRecorder := Some (Recorder "events") |}.

Definition emptyContext : Context :=
  {| ceClient := None; eventRecorder := None |}.

(** ** The package *)

Section Cloudevent.

(** [json.Marshal] of a run object: the encoding, or the text of the
    encoder's error. *)
Variable Marshal : objectWithCondition -> string + string.

(** The SDK's own checks while it builds an event: the text of the error
    [cdeevents.CreateTaskRunEvent] or [cdeevents.CreatePipelineRunEvent]
    returns, if any. *)
Variable sdkRefuses : CDEvent -> option string.

Definition jsonMarshal (v : objectWithCondition) : Result string :=
  match Marshal v with
  | inl data => Ok data
  | inr text => Err (SerializationError text)
  end.

Definition newEvent (c : CDEvent) : Result Event :=
  match sdkRefuses c with
  | Some text => Err (EventCreationError text)
  | None => Ok {| Created := c; Subject := ""; Source := "" |}
  end.

Definition CreateTaskRunEvent (eventType : CDEventType)
    (taskRunId taskRunName taskRunPipelineId : string)
    (taskRunData : gmap string string) : Result Event :=
  newEvent (TaskRunEvent eventType taskRunId taskRunName taskRunPipelineId taskRunData).

Definition CreatePipelineRunEvent (eventType : CDEventType)
    (pipelineRunId pipelineRunName pipelineRunStatus
     pipelineRunURL pipelineRunErrors : string)
    (pipelineRunData : gmap string string) : Result Event :=
  newEvent (PipelineRunEvent eventType pipelineRunId pipelineRunName
              pipelineRunStatus pipelineRunURL pipelineRunErrors pipelineRunData).

(** [getEventData] returns a new instance of [CDECloudEventData]. *)
Definition getEventData (runObject : objectWithCondition) : Result (gmap string string) :=
  let cdeCloudEventData : gmap string string := ∅ in
  match TypeOf runObject with
  | TaskRun =>
    let? data := jsonMarshal runObject in
    Ok (<["taskrun" := data]> cdeCloudEventData)
  | PipelineRun =>
    let? data := jsonMarshal runObject in
    Ok (<["pipelinerun" := data]> cdeCloudEventData)
  | OtherRun _ => Ok cdeCloudEventData
  end.

(** [fmt.Sprintf("/apis/%s/%s/namespaces/%s/%s/%s", ...)]. *)
Definition sourceFor (gvk : GroupVersionKind) (namespace name : string) : string :=
  "/apis/" +:+ Group gvk +:+ "/" +:+ Version gvk +:+ "/namespaces/" +:+ namespace
    +:+ "/" +:+ Kind gvk +:+ "/" +:+ name.

(** The type switch of [eventForObjectWithCondition] that calls the SDK. *)
Definition createEvent (runObject : objectWithCondition) (etype : EventType)
    (data : gmap string string) : Result Event :=
  let meta := GetObjectMeta runObject in
  match TypeOf runObject with
  | TaskRun =>
    CreateTaskRunEvent (Type_ etype) (UID meta) (Name meta) "" data
  | PipelineRun =>
    CreatePipelineRunEvent (Type_ etype) (UID meta) (Name meta) (EStatus etype) "" "" data
  | OtherRun _ => Ok {| Created := ZeroEvent; Subject := ""; Source := "" |}
  end.

(** The tail of [eventForObjectWithCondition]: subject and source. *)
Definition setSubjectAndSource (runObject : objectWithCondition) (event : Event) : Event :=
  let meta := GetObjectMeta runObject in
  let event := SetSubject (Name (GetObjectMeta runObject)) event in
  let source := SelfLink (GetObjectMeta runObject) in
  let source :=
    if String.eqb source "" then
      let gvk := GetGroupVersionKind runObject in
      sourceFor gvk (Namespace meta) (Name meta)
    else source in
  SetSource source event.

(** [eventForObjectWithCondition] creates a new event for an
    [objectWithCondition], or returns an error if not possible. *)
Definition eventForObjectWithCondition (runObject : objectWithCondition) : Result Event :=
  let? data := getEventData runObject in
  let? etype := getEventType runObject in
  let? event := createEvent runObject etype data in
  Ok (setSubjectAndSource runObject event).

(** *** The goroutine and its caller *)

(** Where the caller of [SendCloudEventWithRetries] is once the
    goroutine exists: blocked in [<-wasIn], or back with the value it
    received. *)
Inductive Caller : Type :=
| Blocked
| Returned (err : option Error).

(** Where the goroutine is. *)
Inductive Goroutine : Type :=
| AtHandoff                       (* at wasIn <- nil *)
| AtDebugf                        (* handed off, Send not yet called *)
| InSend (remaining : nat)        (* inside ceClient.Send *)
| AfterSend (result : protocolResult)
| Exited.

(** One dispatch: what the closure captured, both program counters and
    the effects so far (oldest first). *)
Record Dispatch : Type := {
  dContext : Context;
  dClient : CEClient;
  dObject : RuntimeObject;
  dEvent : Event;
  caller : Caller;
  goroutine : Goroutine;
  effects : list Effect
}.

Definition withState (d : Dispatch) (c : Caller) (g : Goroutine) (es : list Effect) : Dispatch :=
  {| dContext := dContext d; dClient := dClient d; dObject := dObject d;
     dEvent := dEvent d; caller := c; goroutine := g; effects := es |}.

Definition at_ (d : Dispatch) (c : Caller) (g : Goroutine) (new : list Effect) : Dispatch :=
  withState d c g (effects d ++ new).

Definition retryContext : RetryParams := ContextWithRetriesExponentialBackoff 10 10.

(** What the goroutine does after a result that is not an ACK. *)
Definition onFailure (d : Dispatch) (text : string) : list Effect :=
  [WarnfFailed text;
   match eventRecorder (dContext d) with
   | None => WarnfNoRecorder
   | Some recorder =>
     RecorderEvent recorder (dObject d) EventTypeWarning "Cloud Event Failure" text
   end].

(** One scheduler step.  The channel is unbuffered: the goroutine's send
    and the caller's receive are one step, and the received nil is what
    the caller returns.  Every later step is the goroutine's alone. *)
Definition step (d : Dispatch) : option Dispatch :=
  match goroutine d with
  | AtHandoff =>
    match caller d with
    | Blocked => Some (at_ d (Returned None) AtDebugf [])
    | Returned _ => None
    end
  | AtDebugf =>
    Some (at_ d (caller d) (InSend (latency (dClient d)))
            [Debugf (EventTypeOf (dEvent d)); SendCall retryContext (dEvent d)])
  | InSend (S n) => Some (at_ d (caller d) (InSend n) [])
  | InSend O =>
    Some (at_ d (caller d) (AfterSend (Send (dClient d) retryContext (dEvent d))) [])
  | AfterSend result =>
    if negb (IsACK result) then
      Some (at_ d (caller d) Exited (onFailure d (ErrorText result)))
    else Some (at_ d (caller d) Exited [])
  | Exited => None
  end.

Fixpoint run (n : nat) (d : Dispatch) : Dispatch :=
  match n with
  | O => d
  | S n' =>
    match step d with
    | Some d' => run n' d'
    | None => d
    end
  end.

(** The goroutine as [SendCloudEventWithRetries] starts it: nothing done
    yet, the caller blocked on [wasIn]. *)
Definition spawned (ctx : Context) (client : CEClient) (object : RuntimeObject)
    (event : Event) : Dispatch :=
  {| dContext := ctx; dClient := client; dObject := object; dEvent := event;
     caller := Blocked; goroutine := AtHandoff; effects := [] |}.

(** The effects of the goroutine up to and including the call of [Send]. *)
Definition sendEffects (event : Event) : list Effect :=
  [Debugf (EventTypeOf event); SendCall retryContext event].

(** What a call of [SendCloudEventWithRetries] comes to: an error
    returned before any goroutine exists, or a goroutine started with the
    caller blocked on [wasIn]. *)
Inductive Call : Type :=
| Fails (err : Error)
| Spawns (d : Dispatch).

(** [SendCloudEventWithRetries] sends a cloud event for the specified
    resource. *)
Definition SendCloudEventWithRetries (ctx : Context) (object : RuntimeObject) : Call :=
  match object with
  | WithoutCondition _ => Fails UnsupportedObjectType
  | WithCondition o =>
    match ceClient ctx with
    | None => Fails NoTransportConfigured
    | Some client =>
      match eventForObjectWithCondition o with
      | Err err => Fails err
      | Ok event => Spawns (spawned ctx client object event)
      end
    end
  end.

(** The value the caller has after [n] scheduler steps, if it has
    returned by then. *)
Definition returnedAfter (n : nat) (c : Call) : option (option Error) :=
  match c with
  | Fails err => Some (Some err)
  | Spawns d =>
    match caller (run n d) with
    | Blocked => None
    | Returned r => Some r
    end
  end.



(** ** Classification *)

Ltac classify Hc :=
  unfold getEventType; rewrite Hc;
  unfold IsUnknown, IsTrue, IsFalse.

Lemma eqb_ne (a b : string) : a <> b -> String.eqb a b = false.
Proof. intros H. apply String.eqb_neq. exact H. Qed.

(** C1: under an unknown [Succeeded] condition a TaskRun with reason
    "Started" or "Running" is classified as (TaskRunStarted, Running), a
    PipelineRun with reason "Started" as (PipelineRunQueued, Running) and
    with reason "Running" as (PipelineRunStarted, Running); for both
    kinds every other reason makes [getEventType] fail with
    [UnrecognizedReason]. *)
Theorem unknown_condition_classified (o : objectWithCondition) (c : Condition) :
  GetCondition ConditionSucceeded (GetStatusCondition o) = Some c ->
  Status c = ConditionUnknown ->
  (TypeOf o = TaskRun -> Reason c = "Started" \/ Reason c = "Running" ->
     getEventType o = Ok {| Type_ := TaskRunStartedEventV1; EStatus := StatusRunning |}) /\
  (TypeOf o = PipelineRun -> Reason c = "Started" ->
     getEventType o = Ok {| Type_ := PipelineRunQueuedEventV1; EStatus := StatusRunning |}) /\
  (TypeOf o = PipelineRun -> Reason c = "Running" ->
     getEventType o = Ok {| Type_ := PipelineRunStartedEventV1; EStatus := StatusRunning |}) /\
  (supported (TypeOf o) = true -> Reason c <> "Started" -> Reason c <> "Running" ->
     getEventType o = Err (UnrecognizedReason (Reason c))).
Proof.
  intros Hc Hs.
  repeat split.
  - intros HT [Hr | Hr]; classify Hc; rewrite Hs, HT, Hr; reflexivity.
  - intros HT Hr; classify Hc; rewrite Hs, HT, Hr; reflexivity.
  - intros HT Hr; classify Hc; rewrite Hs, HT, Hr; reflexivity.
  - intros Hsup H1 H2; classify Hc; rewrite Hs; simpl.
    destruct (TypeOf o); try discriminate Hsup;
      unfold TaskRunReasonStarted, TaskRunReasonRunning,
        PipelineRunReasonStarted, PipelineRunReasonRunning;
      rewrite (eqb_ne _ _ H1), (eqb_ne _ _ H2); reflexivity.
Qed.

(** C2: for a supported kind a true condition is classified as
    [Finished] and a false one as [Error], both with the same event type:
    the kind's finished event. *)
Theorem resolved_condition_classified (oT oF : objectWithCondition) (cT cF : Condition) :
  supported (TypeOf oT) = true ->
  TypeOf oF = TypeOf oT ->
  GetCondition ConditionSucceeded (GetStatusCondition oT) = Some cT ->
  Status cT = ConditionTrue ->
  GetCondition ConditionSucceeded (GetStatusCondition oF) = Some cF ->
  Status cF = ConditionFalse ->
  exists kind : CDEventType,
    getEventType oT = Ok {| Type_ := kind; EStatus := StatusFinished |} /\
    getEventType oF = Ok {| Type_ := kind; EStatus := StatusError |} /\
    (TypeOf oT = TaskRun -> kind = TaskRunFinishedEventV1) /\
    (TypeOf oT = PipelineRun -> kind = PipelineRunFinishedEventV1).
Proof.
  intros Hsup HT HcT HsT HcF HsF.
  unfold getEventType. rewrite HcT, HcF, HT.
  unfold IsUnknown, IsTrue, IsFalse. rewrite HsT, HsF. simpl.
  destruct (TypeOf oT); try discriminate Hsup.
  - exists TaskRunFinishedEventV1. repeat split; congruence.
  - exists PipelineRunFinishedEventV1. repeat split; congruence.
Qed.

(** C3: whatever the kind, [getEventType] fails with [MissingCondition]
    when the object has no [Succeeded] condition, and with
    [UnknownConditionState] when the condition's status is none of
    "True", "False" and "Unknown"; the result is then the error alone,
    an [Err] holds no event type and no status. *)
Theorem condition_errors (o : objectWithCondition) :
  (GetCondition ConditionSucceeded (GetStatusCondition o) = None ->
     getEventType o = Err (MissingCondition (TypeOf o))) /\
  (forall c : Condition,
     GetCondition ConditionSucceeded (GetStatusCondition o) = Some c ->
     Status c <> ConditionTrue -> Status c <> ConditionFalse ->
     Status c <> ConditionUnknown ->
     getEventType o = Err (UnknownConditionState (TypeOf o) (Status c))).
Proof.
  split.
  - intros Hc. unfold getEventType. rewrite Hc. reflexivity.
  - intros c Hc HT HF HU. unfold getEventType. rewrite Hc.
    unfold IsUnknown, IsTrue, IsFalse.
    rewrite (eqb_ne _ _ HT), (eqb_ne _ _ HF), (eqb_ne _ _ HU). reflexivity.
Qed.


(** ** Payload and assembly *)

Lemma getEventData_marshal_error (o : objectWithCondition) (text : string) :
  supported (TypeOf o) = true -> Marshal o = inr text ->
  getEventData o = Err (SerializationError text).
Proof.
  intros Hsup HM. unfold getEventData, jsonMarshal.
  destruct (TypeOf o); try discriminate Hsup; rewrite HM; reflexivity.
Qed.

(** C4: for a TaskRun the payload is the map with the single key
    "taskrun", for a PipelineRun the map with the single key
    "pipelinerun", bound to the encoding of the whole object; when the
    encoder fails [getEventData] returns its error and no map,
    [eventForObjectWithCondition] returns the same error, and so does
    [SendCloudEventWithRetries], without starting a goroutine. *)
Theorem payload_single_key (o : objectWithCondition) :
  supported (TypeOf o) = true ->
  (forall data : string, Marshal o = inl data ->
     (TypeOf o = TaskRun -> getEventData o = Ok {[ "taskrun" := data ]}) /\
     (TypeOf o = PipelineRun -> getEventData o = Ok {[ "pipelinerun" := data ]}) /\
     exists bundle : gmap string string,
       getEventData o = Ok bundle /\ size bundle = 1) /\
  (forall text : string, Marshal o = inr text ->
     getEventData o = Err (SerializationError text) /\
     eventForObjectWithCondition o = Err (SerializationError text) /\
     forall (ctx : Context) (client : CEClient), ceClient ctx = Some client ->
       SendCloudEventWithRetries ctx (WithCondition o) = Fails (SerializationError text)).
Proof.
  intros Hsup. split.
  - intros data HM. unfold getEventData, jsonMarshal. rewrite HM. cbn [bind].
    split; [| split].
    + intros ->. reflexivity.
    + intros ->. reflexivity.
    + destruct (TypeOf o) as [| | name].
      * exists {[ "taskrun" := data ]}.
        split; [reflexivity | apply map_size_singleton].
      * exists {[ "pipelinerun" := data ]}.
        split; [reflexivity | apply map_size_singleton].
      * discriminate Hsup.
  - intros text HM.
    pose proof (getEventData_marshal_error o text Hsup HM) as HD.
    split; [exact HD |].
    assert (HE : eventForObjectWithCondition o = Err (SerializationError text)).
    { unfold eventForObjectWithCondition. rewrite HD. reflexivity. }
    split; [exact HE |].
    intros ctx client Hcl. unfold SendCloudEventWithRetries. rewrite Hcl, HE. reflexivity.
Qed.



Lemma eventFor_inv (o : objectWithCondition) (event : Event) :
  eventForObjectWithCondition o = Ok event ->
  exists data etype created,
    getEventData o = Ok data /\ getEventType o = Ok etype /\
    createEvent o etype data = Ok created /\
    event = setSubjectAndSource o created.
Proof.
  unfold eventForObjectWithCondition. intros H.
  destruct (getEventData o) as [data |]; [| discriminate H].
  destruct (getEventType o) as [etype |]; [| discriminate H].
  cbn [bind] in H.
  destruct (createEvent o etype data) as [created |] eqn:HC; [| discriminate H].
  cbn [bind] in H. injection H as <-.
  exists data, etype, created.
  split; [reflexivity |]. split; [reflexivity |]. split; [exact HC | reflexivity].
Qed.


(** C8, as the code has it: a PipelineRun event carries the status of
    [getEventType] as the status argument of its constructor; a TaskRun
    event is built from the event type, the UID, the name and the
    payload alone, has no status component, and is the same event
    whatever the status is. *)
Theorem status_carried_by_pipelinerun_only (o : objectWithCondition)
    (etype : EventType) (event : Event) :
  getEventType o = Ok etype ->
  eventForObjectWithCondition o = Ok event ->
  (TypeOf o = PipelineRun -> EventStatusOf event = Some (EStatus etype)) /\
  (TypeOf o = TaskRun ->
     EventStatusOf event = None /\
     (exists data : gmap string string,
        getEventData o = Ok data /\
        Created event =
          TaskRunEvent (Type_ etype) (UID (GetObjectMeta o)) (Name (GetObjectMeta o)) "" data) /\
     (forall (s : EventStatus) (data : gmap string string),
        createEvent o (setStatus s etype) data = createEvent o etype data)).
Proof.
  intros HT HE.
  destruct (eventFor_inv o event HE) as (data & etype' & created & HD & HT' & HC & ->).
  rewrite HT in HT'. injection HT' as <-.
  unfold createEvent, CreateTaskRunEvent, CreatePipelineRunEvent, newEvent in HC.
  split.
  - intros HK. rewrite HK in HC.
    destruct (sdkRefuses _); [discriminate HC |]. injection HC as <-. reflexivity.
  - intros HK. rewrite HK in HC.
    destruct (sdkRefuses _); [discriminate HC |]. injection HC as <-.
    split; [reflexivity |]. split.
    + exists data. split; [exact HD | reflexivity].
    + intros s data'. unfold createEvent. rewrite HK. reflexivity.
Qed.

(** ** Dispatch *)

Lemma run_stuck (n : nat) (d : Dispatch) : step d = None -> run n d = d.
Proof. intros H. destruct n; simpl; [reflexivity | rewrite H; reflexivity]. Qed.

Lemma run_add (a b : nat) (d : Dispatch) : run (a + b) d = run b (run a d).
Proof.
  revert d. induction a as [| a IH]; intros d; simpl; [reflexivity |].
  destruct (step d) as [d' |] eqn:E; [apply IH |].
  symmetry. apply run_stuck. exact E.
Qed.

Lemma step_caller (d d' : Dispatch) (r : option Error) :
  step d = Some d' -> caller d = Returned r -> caller d' = Returned r.
Proof.
  unfold step. intros H Hc.
  destruct (goroutine d) as [| | [| n] | result |].
  - rewrite Hc in H. discriminate H.
  - injection H as <-. exact Hc.
  - injection H as <-. exact Hc.
  - injection H as <-. exact Hc.
  - destruct (negb (IsACK result)); injection H as <-; exact Hc.
  - discriminate H.
Qed.

Lemma run_caller (n : nat) (d : Dispatch) (r : option Error) :
  caller d = Returned r -> caller (run n d) = Returned r.
Proof.
  revert d. induction n as [| n IH]; intros d Hc; simpl; [exact Hc |].
  destruct (step d) as [d' |] eqn:E; [| exact Hc].
  apply IH. exact (step_caller d d' r E Hc).
Qed.

(** While [Send] is in flight the goroutine only counts down. *)
Lemma run_in_send (n k : nat) (d : Dispatch) :
  goroutine d = InSend (k + n) ->
  run k d = withState d (caller d) (InSend n) (effects d).
Proof.
  revert d. induction k as [| k IH]; intros d Hg.
  - simpl in *. destruct d; simpl in *. rewrite Hg. reflexivity.
  - simpl. unfold step. rewrite Hg. simpl.
    rewrite (IH (at_ d (caller d) (InSend (k + n)) [])); [| reflexivity].
    unfold at_, withState. simpl. rewrite app_nil_r. reflexivity.
Qed.

Lemma run_handoff (ctx : Context) (client : CEClient) (object : RuntimeObject) (event : Event) :
  run 1 (spawned ctx client object event) =
    withState (spawned ctx client object event) (Returned None) AtDebugf [].
Proof. reflexivity. Qed.

Lemma run_to_send (ctx : Context) (client : CEClient) (object : RuntimeObject)
    (event : Event) (k : nat) :
  k <= latency client ->
  run (2 + k) (spawned ctx client object event) =
    withState (spawned ctx client object event) (Returned None)
      (InSend (latency client - k)) (sendEffects event).
Proof.
  intros Hk. rewrite run_add.
  change (run 2 (spawned ctx client object event))
    with (withState (spawned ctx client object event) (Returned None)
            (InSend (latency client)) (sendEffects event)).
  rewrite (run_in_send (latency client - k) k).
  - reflexivity.
  - simpl. f_equal. lia.
Qed.

Lemma run_after_send (ctx : Context) (client : CEClient) (object : RuntimeObject)
    (event : Event) :
  run (3 + latency client) (spawned ctx client object event) =
    withState (spawned ctx client object event) (Returned None)
      (AfterSend (Send client retryContext event)) (sendEffects event).
Proof.
  replace (3 + latency client) with ((2 + latency client) + 1) by lia.
  rewrite run_add, run_to_send by lia.
  rewrite Nat.sub_diag. reflexivity.
Qed.

(** The whole run of the goroutine: after [latency + 4] steps it has
    exited, and nothing changes afterwards. *)
Lemma run_to_exit (ctx : Context) (client : CEClient) (object : RuntimeObject)
    (event : Event) (n : nat) :
  latency client + 4 <= n ->
  run n (spawned ctx client object event) =
    withState (spawned ctx client object event) (Returned None) Exited
      (sendEffects event ++
       if negb (IsACK (Send client retryContext event)) then
         onFailure (spawned ctx client object event)
           (ErrorText (Send client retryContext event))
       else []).
Proof.
  intros Hn.
  replace n with ((3 + latency client) + (1 + (n - (latency client + 4)))) by lia.
  rewrite run_add, run_after_send, run_add.
  set (r := Send client retryContext event).
  assert (H1 : run 1 (withState (spawned ctx client object event) (Returned None)
                        (AfterSend r) (sendEffects event)) =
               withState (spawned ctx client object event) (Returned None) Exited
                 (sendEffects event ++
                  if negb (IsACK r) then
                    onFailure (spawned ctx client object event) (ErrorText r)
                  else [])).
  { simpl. unfold step. simpl. destruct (negb (IsACK r)); reflexivity. }
  rewrite H1. apply run_stuck. reflexivity.
Qed.

Lemma send_spawns (ctx : Context) (client : CEClient) (o : objectWithCondition)
    (event : Event) :
  ceClient ctx = Some client ->
  eventForObjectWithCondition o = Ok event ->
  SendCloudEventWithRetries ctx (WithCondition o) =
    Spawns (spawned ctx client (WithCondition o) event).
Proof. intros Hc He. unfold SendCloudEventWithRetries. rewrite Hc, He. reflexivity. Qed.

Lemma returned_after_handoff (ctx : Context) (client : CEClient) (object : RuntimeObject)
    (event : Event) (n : nat) :
  0 < n -> caller (run n (spawned ctx client object event)) = Returned None.
Proof.
  intros Hn. replace n with (1 + (n - 1)) by lia.
  rewrite run_add, run_handoff. apply run_caller. reflexivity.
Qed.

(** C6: [SendCloudEventWithRetries] returns an error, with no goroutine
    started, exactly when the object does not satisfy
    [objectWithCondition] ([UnsupportedObjectType]), or the context has
    no client ([NoTransportConfigured]), or
    [eventForObjectWithCondition] fails (that error).  In every other
    case the goroutine is started and the caller returns nil, whatever
    the client's [Send] comes to. *)
Theorem deliver_errors_are_synchronous (ctx : Context) (object : RuntimeObject) :
  (forall name : string, object = WithoutCondition name ->
     SendCloudEventWithRetries ctx object = Fails UnsupportedObjectType) /\
  (forall o : objectWithCondition, object = WithCondition o -> ceClient ctx = None ->
     SendCloudEventWithRetries ctx object = Fails NoTransportConfigured) /\
  (forall (o : objectWithCondition) (client : CEClient) (err : Error),
     object = WithCondition o -> ceClient ctx = Some client ->
     eventForObjectWithCondition o = Err err ->
     SendCloudEventWithRetries ctx object = Fails err) /\
  (forall (o : objectWithCondition) (client : CEClient) (event : Event),
     object = WithCondition o -> ceClient ctx = Some client ->
     eventForObjectWithCondition o = Ok event ->
     SendCloudEventWithRetries ctx object = Spawns (spawned ctx client object event) /\
     forall n : nat,
       (0 < n -> returnedAfter n (SendCloudEventWithRetries ctx object) = Some None) /\
       (forall err : Error,
          returnedAfter n (SendCloudEventWithRetries ctx object) <> Some (Some err))) /\
  ((exists err : Error, SendCloudEventWithRetries ctx object = Fails err) <->
   ((exists name : string, object = WithoutCondition name) \/
    (exists o : objectWithCondition, object = WithCondition o /\
       (ceClient ctx = None \/
        exists err : Error, eventForObjectWithCondition o = Err err)))).
Proof.
  split; [| split; [| split; [| split]]].
  - intros name ->. reflexivity.
  - intros o -> Hc. unfold SendCloudEventWithRetries. rewrite Hc. reflexivity.
  - intros o client err -> Hc He. unfold SendCloudEventWithRetries.
    rewrite Hc, He. reflexivity.
  - intros o client event -> Hc He.
    rewrite (send_spawns ctx client o event Hc He).
    split; [reflexivity |]. intros n. split.
    + intros Hn. unfold returnedAfter. rewrite returned_after_handoff by exact Hn.
      reflexivity.
    + intros err. unfold returnedAfter. destruct n as [| n].
      * simpl. discriminate.
      * rewrite returned_after_handoff by lia. discriminate.
  - unfold SendCloudEventWithRetries. split.
    + intros [err H]. destruct object as [o | name].
      * right. exists o. split; [reflexivity |].
        destruct (ceClient ctx); [| left; reflexivity].
        destruct (eventForObjectWithCondition o) as [event | e]; [discriminate H |].
        right. exists e. reflexivity.
      * left. exists name. reflexivity.
    + intros [[name ->] | [o [-> [Hc | [err He]]]]].
      * eexists. reflexivity.
      * rewrite Hc. eexists. reflexivity.
      * destruct (ceClient ctx); rewrite ?He; eexists; reflexivity.
Qed.

(** C7, as the code has it: when the client's [Send] ends rejected under
    the retry parameters (10 ms, 10 tries), the goroutine calls [Send]
    once, logs a warning and, if the context has a recorder, issues
    exactly one [recorder.Event], on the object that was passed in, of
    type "Warning", with reason "Cloud Event Failure" and the text of
    the last result as message; without a recorder it logs that and
    issues no record.  The caller has returned nil either way. *)
Theorem failed_delivery_is_recorded (ctx : Context) (client : CEClient)
    (o : objectWithCondition) (event : Event) (text : string) (n : nat) :
  ceClient ctx = Some client ->
  eventForObjectWithCondition o = Ok event ->
  Send client retryContext event = NACK text ->
  latency client + 4 <= n ->
  exists d : Dispatch,
    SendCloudEventWithRetries ctx (WithCondition o) = Spawns d /\
    goroutine (run n d) = Exited /\
    caller (run n d) = Returned None /\
    List.length (List.filter isSendCall (effects (run n d))) = 1 /\
    (forall recorder : EventRecorder, eventRecorder ctx = Some recorder ->
       effects (run n d) =
         (sendEffects event ++
          [WarnfFailed text;
           RecorderEvent recorder (WithCondition o) EventTypeWarning
             "Cloud Event Failure" text])%list /\
       List.length (List.filter isRecorderEvent (effects (run n d))) = 1) /\
    (eventRecorder ctx = None ->
       effects (run n d) =
         (sendEffects event ++ [WarnfFailed text; WarnfNoRecorder])%list /\
       List.length (List.filter isRecorderEvent (effects (run n d))) = 0).
Proof.
  intros Hc He Hs Hn.
  exists (spawned ctx client (WithCondition o) event).
  split; [apply send_spawns; assumption |].
  rewrite run_to_exit by exact Hn. rewrite Hs. simpl.
  unfold onFailure. simpl.
  split; [reflexivity |]. split; [reflexivity |]. split.
  - destruct (eventRecorder ctx); reflexivity.
  - split.
    + intros recorder Hr. rewrite Hr. split; reflexivity.
    + intros Hr. rewrite Hr. split; reflexivity.
Qed.


(** ** Further properties of the classification *)

Lemma status_cases (c : Condition) :
  (Status c = ConditionUnknown /\ IsUnknown c = true) \/
  (Status c = ConditionTrue /\ IsUnknown c = false /\ IsTrue c = true) \/
  (Status c = ConditionFalse /\ IsUnknown c = false /\ IsTrue c = false /\
     IsFalse c = true) \/
  (Status c <> ConditionUnknown /\ Status c <> ConditionTrue /\
     Status c <> ConditionFalse /\
     IsUnknown c = false /\ IsTrue c = false /\ IsFalse c = false).
Proof.
  unfold IsUnknown, IsTrue, IsFalse.
  destruct (String.eqb (Status c) ConditionUnknown) eqn:EU.
  { left. apply String.eqb_eq in EU. split; [exact EU | reflexivity]. }
  destruct (String.eqb (Status c) ConditionTrue) eqn:ET.
  { right. left. apply String.eqb_eq in ET. repeat split; assumption. }
  destruct (String.eqb (Status c) ConditionFalse) eqn:EF.
  { right. right. left. apply String.eqb_eq in EF. repeat split; assumption. }
  right. right. right.
  apply String.eqb_neq in EU. apply String.eqb_neq in ET. apply String.eqb_neq in EF.
  repeat split; assumption.
Qed.

Lemma reason_cases (r : string) :
  (r = "Started" /\ String.eqb r "Started" = true) \/
  (r = "Running" /\ String.eqb r "Started" = false /\ String.eqb r "Running" = true) \/
  (r <> "Started" /\ r <> "Running" /\
     String.eqb r "Started" = false /\ String.eqb r "Running" = false).
Proof.
  destruct (String.eqb r "Started") eqn:ES.
  { left. apply String.eqb_eq in ES. split; [exact ES | reflexivity]. }
  destruct (String.eqb r "Running") eqn:ER.
  { right. left. apply String.eqb_eq in ER. repeat split; assumption. }
  right. right. apply String.eqb_neq in ES. apply String.eqb_neq in ER.
  repeat split; assumption.
Qed.

Ltac by_status c :=
  destruct (status_cases c) as
    [[HU EU] | [(HT & EU & ET) | [(HF & EU & ET & EF) | (NU & NT & NF & EU & ET & EF)]]];
  rewrite ?EU, ?ET, ?EF.

Ltac by_reason c :=
  unfold TaskRunReasonStarted, TaskRunReasonRunning,
    PipelineRunReasonStarted, PipelineRunReasonRunning;
  destruct (reason_cases (Reason c)) as
    [[RS ES] | [(RR & ES & ER) | (NS & NR & ES & ER)]];
  rewrite ?ES, ?ER.

(** X1: [getEventType] succeeds exactly when the object has a
    [Succeeded] condition whose status is "True" or "False", or
    "Unknown" with, for a TaskRun or a PipelineRun, the reason "Started"
    or "Running". *)
Theorem getEventType_succeeds_iff (o : objectWithCondition) :
  (exists et : EventType, getEventType o = Ok et) <->
  (exists c : Condition,
     GetCondition ConditionSucceeded (GetStatusCondition o) = Some c /\
     (Status c = ConditionTrue \/ Status c = ConditionFalse \/
      (Status c = ConditionUnknown /\
       (supported (TypeOf o) = true ->
          Reason c = "Started" \/ Reason c = "Running")))).
Proof.
  unfold getEventType.
  destruct (GetCondition ConditionSucceeded (GetStatusCondition o)) as [c |].
  2: { split; [intros [et H]; discriminate H | intros (c & H & _); discriminate H]. }
  split.
  - intros [et H]. exists c. split; [reflexivity |].
    revert H. by_status c; intros H.
    + right. right. split; [exact HU |]. intros Hsup.
      revert H. destruct (TypeOf o); try discriminate Hsup;
        by_reason c; intros H; try discriminate H; auto.
    + left. exact HT.
    + right. left. exact HF.
    + discriminate H.
  - intros (c' & Hc & H). injection Hc as <-.
    destruct H as [HT | [HF | [HU Hr]]].
    + unfold IsUnknown, IsTrue. rewrite HT. simpl.
      destruct (TypeOf o); eexists; reflexivity.
    + unfold IsUnknown, IsTrue, IsFalse. rewrite HF. simpl.
      destruct (TypeOf o); eexists; reflexivity.
    + unfold IsUnknown. rewrite HU. simpl.
      destruct (TypeOf o); simpl in Hr.
      * destruct (Hr eq_refl) as [-> | ->]; eexists; reflexivity.
      * destruct (Hr eq_refl) as [-> | ->]; eexists; reflexivity.
      * eexists. reflexivity.
Qed.

(** X2: when [getEventType] succeeds, the status it returns is decided
    by the condition's status alone: "Running" exactly for "Unknown",
    "Finished" exactly for "True", "Error" exactly for "False", whatever
    the kind and the reason. *)
Theorem status_follows_condition (o : objectWithCondition) (c : Condition)
    (et : EventType) :
  GetCondition ConditionSucceeded (GetStatusCondition o) = Some c ->
  getEventType o = Ok et ->
  (EStatus et = StatusRunning <-> Status c = ConditionUnknown) /\
  (EStatus et = StatusFinished <-> Status c = ConditionTrue) /\
  (EStatus et = StatusError <-> Status c = ConditionFalse).
Proof.
  intros Hc. unfold getEventType. rewrite Hc.
  by_status c; intros H.
  - assert (E : EStatus et = StatusRunning).
    { revert H. destruct (TypeOf o); by_reason c; intros H;
        try discriminate H; injection H as <-; reflexivity. }
    rewrite E, HU. repeat split; intros; try reflexivity; discriminate.
  - assert (E : EStatus et = StatusFinished).
    { destruct (TypeOf o); injection H as <-; reflexivity. }
    rewrite E, HT. repeat split; intros; try reflexivity; discriminate.
  - assert (E : EStatus et = StatusError).
    { destruct (TypeOf o); injection H as <-; reflexivity. }
    rewrite E, HF. repeat split; intros; try reflexivity; discriminate.
  - discriminate H.
Qed.

(** X3: the event type [getEventType] returns belongs to the kind of the
    object and to the phase of the status: a TaskRun gets
    [TaskRunStartedEventV1] while running and [TaskRunFinishedEventV1]
    once finished or failed, a PipelineRun gets a queued or started
    event while running and [PipelineRunFinishedEventV1] otherwise, and
    the zero event type is returned exactly for the other kinds. *)
Theorem event_type_matches_kind (o : objectWithCondition) (et : EventType) :
  getEventType o = Ok et ->
  (TypeOf o = TaskRun ->
     (EStatus et = StatusRunning /\ Type_ et = TaskRunStartedEventV1) \/
     (EStatus et <> StatusRunning /\ Type_ et = TaskRunFinishedEventV1)) /\
  (TypeOf o = PipelineRun ->
     (EStatus et = StatusRunning /\
        (Type_ et = PipelineRunQueuedEventV1 \/ Type_ et = PipelineRunStartedEventV1)) \/
     (EStatus et <> StatusRunning /\ Type_ et = PipelineRunFinishedEventV1)) /\
  (Type_ et = NoEventType <-> supported (TypeOf o) = false).
Proof.
  unfold getEventType.
  destruct (GetCondition ConditionSucceeded (GetStatusCondition o)) as [c |];
    [| intros H; discriminate H].
  by_status c; destruct (TypeOf o) as [| | name]; try by_reason c;
    intros H; try discriminate H; injection H as <-;
    (split; [| split]);
    try (intros HK; discriminate HK);
    try (split; intros HK; (discriminate HK || reflexivity));
    intros _; simpl;
    first [ left; split; [reflexivity | auto]
          | right; split; [discriminate | reflexivity] ].
Qed.

(** X4: the reason is read only under an unknown condition: two objects
    of the same type whose [Succeeded] conditions have the same status,
    other than "Unknown", get the same result whatever their reasons. *)
Theorem resolved_condition_ignores_reason (o1 o2 : objectWithCondition)
    (c1 c2 : Condition) :
  TypeOf o1 = TypeOf o2 ->
  GetCondition ConditionSucceeded (GetStatusCondition o1) = Some c1 ->
  GetCondition ConditionSucceeded (GetStatusCondition o2) = Some c2 ->
  Status c1 = Status c2 ->
  Status c1 <> ConditionUnknown ->
  getEventType o1 = getEventType o2.
Proof.
  intros HT H1 H2 Hs Hn. unfold getEventType. rewrite H1, H2, HT.
  unfold IsUnknown, IsTrue, IsFalse. rewrite <- Hs.
  rewrite (eqb_ne _ _ Hn). reflexivity.
Qed.

(** ** Further properties of the assembly *)

Lemma getEventType_error (o : objectWithCondition) (e : Error) :
  getEventType o = Err e ->
  (e = MissingCondition (TypeOf o) /\
     GetCondition ConditionSucceeded (GetStatusCondition o) = None) \/
  (exists c : Condition,
     GetCondition ConditionSucceeded (GetStatusCondition o) = Some c /\
     ((e = UnrecognizedReason (Reason c) /\ Status c = ConditionUnknown /\
         supported (TypeOf o) = true /\
         Reason c <> "Started" /\ Reason c <> "Running") \/
      (e = UnknownConditionState (TypeOf o) (Status c) /\
         Status c <> ConditionUnknown /\ Status c <> ConditionTrue /\
         Status c <> ConditionFalse))).
Proof.
  unfold getEventType.
  destruct (GetCondition ConditionSucceeded (GetStatusCondition o)) as [c |].
  2: { intros H. injection H as <-. left. split; reflexivity. }
  intros H. right. exists c. split; [reflexivity |]. revert H.
  by_status c.
  - destruct (TypeOf o); by_reason c; intros H; try discriminate H;
      injection H as <-; left; repeat split; assumption.
  - destruct (TypeOf o); intros H; discriminate H.
  - destruct (TypeOf o); intros H; discriminate H.
  - intros H. injection H as <-. right. repeat split; assumption.
Qed.

(** X5: the errors of [eventForObjectWithCondition].  It fails only
    with the encoder's error (TaskRun and PipelineRun only: no other
    kind is encoded), with [MissingCondition], with [UnrecognizedReason]
    (TaskRun and PipelineRun under an unknown condition only), with
    [UnknownConditionState], or with the SDK constructor's error (again
    TaskRun and PipelineRun only); it never returns the two errors of
    the dispatch. *)
Theorem eventFor_errors (o : objectWithCondition) (e : Error) :
  eventForObjectWithCondition o = Err e ->
  (exists text : string,
     e = SerializationError text /\ Marshal o = inr text /\
     supported (TypeOf o) = true) \/
  (e = MissingCondition (TypeOf o) /\
     GetCondition ConditionSucceeded (GetStatusCondition o) = None) \/
  (exists c : Condition,
     GetCondition ConditionSucceeded (GetStatusCondition o) = Some c /\
     e = UnrecognizedReason (Reason c) /\ Status c = ConditionUnknown /\
     supported (TypeOf o) = true /\ Reason c <> "Started" /\ Reason c <> "Running") \/
  (exists c : Condition,
     GetCondition ConditionSucceeded (GetStatusCondition o) = Some c /\
     e = UnknownConditionState (TypeOf o) (Status c) /\
     Status c <> ConditionUnknown /\ Status c <> ConditionTrue /\
     Status c <> ConditionFalse) \/
  (exists text : string,
     e = EventCreationError text /\ supported (TypeOf o) = true).
Proof.
  unfold eventForObjectWithCondition. intros H.
  destruct (getEventData o) as [data | e1] eqn:HD.
  - cbn [bind] in H.
    destruct (getEventType o) as [etype | e2] eqn:HT.
    + cbn [bind] in H. right. right. right. right.
      unfold createEvent, CreateTaskRunEvent, CreatePipelineRunEvent, newEvent in H.
      destruct (TypeOf o).
      * destruct (sdkRefuses _) as [text |]; [| discriminate H].
        injection H as <-. exists text. split; reflexivity.
      * destruct (sdkRefuses _) as [text |]; [| discriminate H].
        injection H as <-. exists text. split; reflexivity.
      * discriminate H.
    + cbn [bind] in H. injection H as <-. right.
      destruct (getEventType_error o e2 HT)
        as [HM | (c & Hc & [HR | HS])].
      * left. exact HM.
      * right. left. exists c. split; [exact Hc | exact HR].
      * right. right. left. exists c. split; [exact Hc | exact HS].
  - cbn [bind] in H. injection H as <-. left.
    unfold getEventData, jsonMarshal in HD.
    destruct (TypeOf o).
    + destruct (Marshal o) as [data | text]; [discriminate HD |].
      injection HD as <-. exists text. repeat split; reflexivity.
    + destruct (Marshal o) as [data | text]; [discriminate HD |].
      injection HD as <-. exists text. repeat split; reflexivity.
    + discriminate HD.
Qed.

(** X6: what the event of a supported kind is made of.  Its type is the
    one [getEventType] returned, its subject is the object's name, and
    its payload is the encoding of the object under the single key of
    its kind; a TaskRun event is
    [CreateTaskRunEvent(type, UID, name, "", data)] and a PipelineRun
    event is [CreatePipelineRunEvent(type, UID, name, status, "", "", data)]. *)
Theorem envelope_components (o : objectWithCondition) (event : Event) :
  supported (TypeOf o) = true ->
  eventForObjectWithCondition o = Ok event ->
  exists (etype : EventType) (encoding : string),
    getEventType o = Ok etype /\
    Marshal o = inl encoding /\
    EventTypeOf event = Type_ etype /\
    Subject event = Name (GetObjectMeta o) /\
    (TypeOf o = TaskRun ->
       EventDataOf event = {[ "taskrun" := encoding ]} /\
       Created event =
         TaskRunEvent (Type_ etype) (UID (GetObjectMeta o)) (Name (GetObjectMeta o))
           "" {[ "taskrun" := encoding ]}) /\
    (TypeOf o = PipelineRun ->
       EventDataOf event = {[ "pipelinerun" := encoding ]} /\
       Created event =
         PipelineRunEvent (Type_ etype) (UID (GetObjectMeta o))
           (Name (GetObjectMeta o)) (EStatus etype) "" ""
           {[ "pipelinerun" := encoding ]}).
Proof.
  intros Hsup HE.
  destruct (eventFor_inv o event HE) as (data & etype & created & HD & HT & HC & ->).
  unfold getEventData, jsonMarshal in HD.
  unfold createEvent, CreateTaskRunEvent, CreatePipelineRunEvent, newEvent in HC.
  destruct (TypeOf o) as [| | name]; [| | discriminate Hsup].
  - destruct (Marshal o) as [encoding | text]; [| discriminate HD].
    cbn [bind] in HD. injection HD as <-.
    destruct (sdkRefuses _); [discriminate HC |]. injection HC as <-.
    exists etype, encoding.
    split; [exact HT |]. split; [reflexivity |]. split; [reflexivity |].
    split; [reflexivity |]. split.
    + intros _. split; reflexivity.
    + intros HK. discriminate HK.
  - destruct (Marshal o) as [encoding | text]; [| discriminate HD].
    cbn [bind] in HD. injection HD as <-.
    destruct (sdkRefuses _); [discriminate HC |]. injection HC as <-.
    exists etype, encoding.
    split; [exact HT |]. split; [reflexivity |]. split; [reflexivity |].
    split; [reflexivity |]. split.
    + intros HK. discriminate HK.
    + intros _. split; reflexivity.
Qed.

(** X7: the status attribute of a PipelineRun event spells the
    condition: "Running" under an unknown condition, "Finished" under a
    true one, "Error" under a false one. *)
Theorem pipelinerun_status_attribute (o : objectWithCondition) (c : Condition)
    (event : Event) :
  TypeOf o = PipelineRun ->
  GetCondition ConditionSucceeded (GetStatusCondition o) = Some c ->
  eventForObjectWithCondition o = Ok event ->
  (Status c = ConditionUnknown /\ EventStatusOf event = Some "Running") \/
  (Status c = ConditionTrue /\ EventStatusOf event = Some "Finished") \/
  (Status c = ConditionFalse /\ EventStatusOf event = Some "Error").
Proof.
  intros HK Hc HE.
  destruct (eventFor_inv o event HE) as (data & etype & created & _ & HT & HC & ->).
  unfold createEvent, CreatePipelineRunEvent, newEvent in HC. rewrite HK in HC.
  destruct (sdkRefuses _); [discriminate HC |]. injection HC as <-.
  unfold getEventType in HT. rewrite Hc, HK in HT.
  revert HT. by_status c.
  - by_reason c; intros HT; try discriminate HT; injection HT as <-;
      left; (split; [exact HU | reflexivity]).
  - intros H. injection H as <-. right. left. split; [exact HT | reflexivity].
  - intros HT. injection HT as <-. right. right. split; [exact HF | reflexivity].
  - intros HT. discriminate HT.
Qed.

(** ** Further properties of the dispatch *)

(** What the goroutine adds after a result: nothing after an ACK. *)
Lemma effects_at (ctx : Context) (client : CEClient) (object : RuntimeObject)
    (event : Event) (n : nat) :
  (n < 2 /\ effects (run n (spawned ctx client object event)) = []) \/
  (2 <= n < latency client + 4 /\
     effects (run n (spawned ctx client object event)) = sendEffects event) \/
  (latency client + 4 <= n /\
     effects (run n (spawned ctx client object event)) =
       (sendEffects event ++
        if negb (IsACK (Send client retryContext event)) then
          onFailure (spawned ctx client object event)
            (ErrorText (Send client retryContext event))
        else [])%list).
Proof.
  destruct (Nat.lt_ge_cases n 2) as [H2 | H2].
  { left. split; [exact H2 |]. destruct n as [| [| n]]; [reflexivity | reflexivity | lia]. }
  right. destruct (Nat.lt_ge_cases n (latency client + 4)) as [H4 | H4].
  - left. split; [lia |].
    destruct (Nat.eq_dec n (3 + latency client)) as [-> | Hne].
    + rewrite run_after_send. reflexivity.
    + replace n with (2 + (n - 2)) by lia. rewrite run_to_send by lia. reflexivity.
  - right. split; [exact H4 |]. rewrite run_to_exit by exact H4. reflexivity.
Qed.

(** X8: after an acknowledged [Send] the goroutine exits without a
    warning and without a record: all it did is the debug line and the
    one call of [Send]. *)
Theorem acknowledged_delivery_is_silent (ctx : Context) (client : CEClient)
    (o : objectWithCondition) (event : Event) (n : nat) :
  ceClient ctx = Some client ->
  eventForObjectWithCondition o = Ok event ->
  Send client retryContext event = ACK ->
  latency client + 4 <= n ->
  exists d : Dispatch,
    SendCloudEventWithRetries ctx (WithCondition o) = Spawns d /\
    goroutine (run n d) = Exited /\
    step (run n d) = None /\
    effects (run n d) =
      [Debugf (EventTypeOf event);
       SendCall {| Period := 10; MaxTries := 10 |} event] /\
    List.filter isRecorderEvent (effects (run n d)) = [].
Proof.
  intros Hc He Hs Hn.
  exists (spawned ctx client (WithCondition o) event).
  split; [apply send_spawns; assumption |].
  rewrite run_to_exit by exact Hn. rewrite Hs.
  repeat split; reflexivity.
Qed.

(** X9: a record is issued only for a failed delivery.  Whenever the
    effects of the goroutine hold a [recorder.Event], [Send] has
    completed with a result that is not an ACK, the recorder is the one
    of the context, the object is the one passed in, the type is
    "Warning", the reason "Cloud Event Failure" and the message the text
    of the result. *)
Theorem record_only_after_failure (ctx : Context) (client : CEClient)
    (object : RuntimeObject) (event : Event) (n : nat)
    (r : EventRecorder) (subject : RuntimeObject) (eventtype reason message : string) :
  In (RecorderEvent r subject eventtype reason message)
     (effects (run n (spawned ctx client object event))) ->
  latency client + 4 <= n /\
  IsACK (Send client retryContext event) = false /\
  eventRecorder ctx = Some r /\
  subject = object /\
  eventtype = "Warning" /\
  reason = "Cloud Event Failure" /\
  message = ErrorText (Send client retryContext event).
Proof.
  intros HIn.
  destruct (effects_at ctx client object event n)
    as [[_ E] | [[_ E] | [Hn E]]]; rewrite E in HIn.
  - destruct HIn.
  - destruct HIn as [H | [H | []]]; discriminate H.
  - split; [exact Hn |].
    destruct (IsACK (Send client retryContext event)); simpl in HIn.
    + destruct HIn as [H | [H | []]]; discriminate H.
    + destruct HIn as [H | [H | [H | [H | []]]]]; try discriminate H.
      unfold spawned in H. simpl in H.
      destruct (eventRecorder ctx) as [r' |]; [| discriminate H].
      injection H as H1 H2 H3 H4 H5. subst.
      repeat split; reflexivity.
Qed.

(** X10: the package never retries by itself.  At every step the
    goroutine has called [Send] at most once, and from its second step
    on exactly once, with the event that was built and the retry
    parameters (10 ms, 10 tries). *)
Theorem send_called_once (ctx : Context) (client : CEClient)
    (object : RuntimeObject) (event : Event) (n : nat) :
  List.filter isSendCall (effects (run n (spawned ctx client object event))) =
    if Nat.ltb n 2 then []
    else [SendCall {| Period := 10; MaxTries := 10 |} event].
Proof.
  destruct (effects_at ctx client object event n)
    as [[Hn E] | [[Hn E] | [Hn E]]]; rewrite E.
  - apply Nat.ltb_lt in Hn. rewrite Hn. reflexivity.
  - assert (H : Nat.ltb n 2 = false) by (apply Nat.ltb_ge; lia). rewrite H. reflexivity.
  - assert (H : Nat.ltb n 2 = false) by (apply Nat.ltb_ge; lia). rewrite H.
    destruct (IsACK (Send client retryContext event)); simpl.
    + reflexivity.
    + destruct (eventRecorder ctx); reflexivity.
Qed.

End Cloudevent.

(** ** The theorems at sample inputs *)

(** The four cases of C1 on sample runs. *)
Lemma unknown_condition_classified_witness :
  getEventType (sampleTaskRun "Unknown" "Started") =
    Ok {| Type_ := TaskRunStartedEventV1; EStatus := StatusRunning |} /\
  getEventType (samplePipelineRun "Unknown" "Started") =
    Ok {| Type_ := PipelineRunQueuedEventV1; EStatus := StatusRunning |} /\
  getEventType (samplePipelineRun "Unknown" "Running") =
    Ok {| Type_ := PipelineRunStartedEventV1; EStatus := StatusRunning |} /\
  getEventType (sampleTaskRun "Unknown" "Pending") = Err (UnrecognizedReason "Pending").
Proof.
  split; [| split; [| split]].
  - apply (unknown_condition_classified (sampleTaskRun "Unknown" "Started")
             (succeededIs "Unknown" "Started") eq_refl eq_refl).
    + reflexivity.
    + left. reflexivity.
  - apply (unknown_condition_classified (samplePipelineRun "Unknown" "Started")
             (succeededIs "Unknown" "Started") eq_refl eq_refl); reflexivity.
  - apply (unknown_condition_classified (samplePipelineRun "Unknown" "Running")
             (succeededIs "Unknown" "Running") eq_refl eq_refl); reflexivity.
  - apply (unknown_condition_classified (sampleTaskRun "Unknown" "Pending")
             (succeededIs "Unknown" "Pending") eq_refl eq_refl);
      [reflexivity | discriminate | discriminate].
Defined.

(** C2 on a sample PipelineRun that succeeded and one that failed. *)
Lemma resolved_condition_classified_witness :
  exists kind : CDEventType,
    getEventType (samplePipelineRun "True" "Succeeded") =
      Ok {| Type_ := kind; EStatus := StatusFinished |} /\
    getEventType (samplePipelineRun "False" "Failed") =
      Ok {| Type_ := kind; EStatus := StatusError |} /\
    (TypeOf (samplePipelineRun "True" "Succeeded") = TaskRun ->
       kind = TaskRunFinishedEventV1) /\
    (TypeOf (samplePipelineRun "True" "Succeeded") = PipelineRun ->
       kind = PipelineRunFinishedEventV1).
Proof.
  exact (resolved_condition_classified
           (samplePipelineRun "True" "Succeeded") (samplePipelineRun "False" "Failed")
           (succeededIs "True" "Succeeded") (succeededIs "False" "Failed")
           eq_refl eq_refl eq_refl eq_refl eq_refl eq_refl).
Defined.

(** C3 on a PipelineRun without conditions and on a run whose status is
    "Paused". *)
Lemma condition_errors_witness :
  getEventType (sampleRun PipelineRun "PipelineRun" []) =
    Err (MissingCondition PipelineRun) /\
  getEventType (sampleOtherRun "Paused" "Started") =
    Err (UnknownConditionState (OtherRun "*v1alpha1.Run") "Paused").
Proof.
  split.
  - apply (condition_errors (sampleRun PipelineRun "PipelineRun" [])). reflexivity.
  - apply (condition_errors (sampleOtherRun "Paused" "Started"))
      with (c := succeededIs "Paused" "Started");
      [reflexivity | discriminate | discriminate | discriminate].
Defined.


(** C4 on the sample runs, with the encoder that succeeds and the one
    that fails. *)
Lemma payload_single_key_witness :
  getEventData encodeObject (sampleTaskRun "True" "Succeeded") =
    Ok {[ "taskrun" := "json:build-1:steps" ]} /\
  getEventData encodeObject (samplePipelineRun "True" "Succeeded") =
    Ok {[ "pipelinerun" := "json:build-1:steps" ]} /\
  SendCloudEventWithRetries encodeFails sdkAccepts (ackingContext 0)
    (WithCondition (sampleTaskRun "True" "Succeeded")) =
    Fails (SerializationError "json: unsupported value").
Proof.
  split; [| split].
  - apply (payload_single_key encodeObject sdkAccepts
             (sampleTaskRun "True" "Succeeded") eq_refl); reflexivity.
  - apply (payload_single_key encodeObject sdkAccepts
             (samplePipelineRun "True" "Succeeded") eq_refl); reflexivity.
  - apply (payload_single_key encodeFails sdkAccepts
             (sampleTaskRun "True" "Succeeded") eq_refl)
      with (client := retryingClient alwaysAcks 0); reflexivity.
Defined.


(** The event built for the sample TaskRun whose condition is true. *)
Lemma sample_taskrun_event :
  eventForObjectWithCondition encodeObject sdkAccepts (sampleTaskRun "True" "Succeeded") =
    Ok {| Created := TaskRunEvent TaskRunFinishedEventV1 "uid-1" "build-1" ""
                       {[ "taskrun" := "json:build-1:steps" ]};
          Subject := "build-1";
          Source := "/apis/tekton.dev/v1beta1/namespaces/ci/TaskRun/build-1" |}.
Proof. reflexivity. Qed.

(** C8 as stated fails: the sample TaskRun with a true condition is
    classified with status "Finished", and the event built for it has no
    status component. *)
Lemma taskrun_event_drops_status :
  ~ (forall (Marshal : objectWithCondition -> string + string)
            (sdkRefuses : CDEvent -> option string)
            (o : objectWithCondition) (etype : EventType) (event : Event),
       supported (TypeOf o) = true ->
       getEventType o = Ok etype ->
       eventForObjectWithCondition Marshal sdkRefuses o = Ok event ->
       EventStatusOf event = Some (EStatus etype)).
Proof.
  intros H.
  specialize (H encodeObject sdkAccepts (sampleTaskRun "True" "Succeeded")
                {| Type_ := TaskRunFinishedEventV1; EStatus := StatusFinished |} _
                eq_refl eq_refl sample_taskrun_event).
  discriminate H.
Qed.

(** C8 on a failed PipelineRun and on a succeeded TaskRun. *)
Lemma status_carried_by_pipelinerun_only_witness :
  (exists event : Event,
     eventForObjectWithCondition encodeObject sdkAccepts
       (samplePipelineRun "False" "Failed") = Ok event /\
     EventStatusOf event = Some "Error") /\
  (exists event : Event,
     eventForObjectWithCondition encodeObject sdkAccepts
       (sampleTaskRun "True" "Succeeded") = Ok event /\
     EventStatusOf event = None).
Proof.
  split.
  - eexists. split; [reflexivity |].
    apply (status_carried_by_pipelinerun_only encodeObject sdkAccepts
             (samplePipelineRun "False" "Failed")
             {| Type_ := PipelineRunFinishedEventV1; EStatus := StatusError |} _
             eq_refl eq_refl).
    reflexivity.
  - eexists. split; [exact sample_taskrun_event |].
    apply (status_carried_by_pipelinerun_only encodeObject sdkAccepts
             (sampleTaskRun "True" "Succeeded")
             {| Type_ := TaskRunFinishedEventV1; EStatus := StatusFinished |} _
             eq_refl sample_taskrun_event).
    reflexivity.
Defined.

(** C6: the three synchronous errors, and the nil returned while the
    transport rejects. *)
Lemma deliver_errors_are_synchronous_witness :
  SendCloudEventWithRetries encodeObject sdkAccepts (ackingContext 3)
    (WithoutCondition "*corev1.Pod") = Fails UnsupportedObjectType /\
  SendCloudEventWithRetries encodeObject sdkAccepts emptyContext
    (WithCondition (sampleTaskRun "True" "Succeeded")) = Fails NoTransportConfigured /\
  SendCloudEventWithRetries encodeObject sdkAccepts (ackingContext 3)
    (WithCondition (sampleTaskRun "Unknown" "Pending")) =
    Fails (UnrecognizedReason "Pending") /\
  returnedAfter 1
    (SendCloudEventWithRetries encodeObject sdkAccepts
       (rejectingContext 3 (Some (Recorder "events")))
       (WithCondition (sampleTaskRun "True" "Succeeded"))) = Some None.
Proof.
  split; [| split; [| split]].
  - apply (deliver_errors_are_synchronous encodeObject sdkAccepts (ackingContext 3)
             (WithoutCondition "*corev1.Pod")) with (name := "*corev1.Pod").
    reflexivity.
  - apply (deliver_errors_are_synchronous encodeObject sdkAccepts emptyContext
             (WithCondition (sampleTaskRun "True" "Succeeded")))
      with (o := sampleTaskRun "True" "Succeeded"); reflexivity.
  - apply (deliver_errors_are_synchronous encodeObject sdkAccepts (ackingContext 3)
             (WithCondition (sampleTaskRun "Unknown" "Pending")))
      with (o := sampleTaskRun "Unknown" "Pending")
           (client := retryingClient alwaysAcks 3); reflexivity.
  - destruct (deliver_errors_are_synchronous encodeObject sdkAccepts
                (rejectingContext 3 (Some (Recorder "events")))
                (WithCondition (sampleTaskRun "True" "Succeeded")))
      as (_ & _ & _ & H & _).
    destruct (H (sampleTaskRun "True" "Succeeded") (retryingClient alwaysRejects 3) _
                eq_refl eq_refl sample_taskrun_event) as [_ Hn].
    apply (Hn 1). lia.
Defined.

(** The sample transport rejects all ten tries. *)
Lemma sample_rejected (lat : nat) (event : Event) :
  Send (retryingClient alwaysRejects lat) retryContext event = NACK "503 unavailable".
Proof. reflexivity. Qed.

(** C7 as stated fails: after the sample transport rejected every try,
    the record the goroutine issued has the reason "Cloud Event Failure";
    no record with the reason "delivery failure" exists. *)
Lemma recorded_reason_is_not_delivery_failure :
  ~ (forall (Marshal : objectWithCondition -> string + string)
            (sdkRefuses : CDEvent -> option string)
            (ctx : Context) (client : CEClient) (recorder : EventRecorder)
            (o : objectWithCondition) (event : Event) (text : string) (d : Dispatch),
       ceClient ctx = Some client ->
       eventRecorder ctx = Some recorder ->
       eventForObjectWithCondition Marshal sdkRefuses o = Ok event ->
       Send client retryContext event = NACK text ->
       SendCloudEventWithRetries Marshal sdkRefuses ctx (WithCondition o) = Spawns d ->
       In (RecorderEvent recorder (WithCondition o) EventTypeWarning
             "delivery failure" text)
          (effects (run (latency client + 4) d))).
Proof.
  intros H.
  specialize (H encodeObject sdkAccepts
                (rejectingContext 0 (Some (Recorder "events")))
                (retryingClient alwaysRejects 0) (Recorder "events")
                (sampleTaskRun "True" "Succeeded") _ "503 unavailable" _
                eq_refl eq_refl sample_taskrun_event (sample_rejected 0 _) eq_refl).
  rewrite run_to_exit in H by reflexivity.
  simpl in H.
  destruct H as [H | [H | [H | [H | []]]]]; discriminate H.
Qed.

(** C7 on the transport that rejects every try, with a latency of two
    steps: the one record issued. *)
Lemma failed_delivery_is_recorded_witness :
  exists d : Dispatch,
    SendCloudEventWithRetries encodeObject sdkAccepts
      (rejectingContext 2 (Some (Recorder "events")))
      (WithCondition (sampleTaskRun "True" "Succeeded")) = Spawns d /\
    List.filter isRecorderEvent (effects (run 6 d)) =
      [RecorderEvent (Recorder "events")
         (WithCondition (sampleTaskRun "True" "Succeeded"))
         "Warning" "Cloud Event Failure" "503 unavailable"].
Proof.
  destruct (failed_delivery_is_recorded encodeObject sdkAccepts
              (rejectingContext 2 (Some (Recorder "events")))
              (retryingClient alwaysRejects 2)
              (sampleTaskRun "True" "Succeeded") _ "503 unavailable" 6
              eq_refl sample_taskrun_event (sample_rejected 2 _) (le_n 6))
    as (d & Hd & _ & _ & _ & Hr & _).
  exists d. split; [exact Hd |].
  destruct (Hr (Recorder "events") eq_refl) as [-> _].
  reflexivity.
Defined.


(** ** The further properties at sample inputs *)

(** X1 on a TaskRun whose unknown condition has the reason "Running". *)
Lemma getEventType_succeeds_iff_witness :
  exists et : EventType, getEventType (sampleTaskRun "Unknown" "Running") = Ok et.
Proof.
  apply (getEventType_succeeds_iff (sampleTaskRun "Unknown" "Running")).
  exists (succeededIs "Unknown" "Running").
  split; [reflexivity |]. right. right.
  split; [reflexivity |]. intros _. right. reflexivity.
Defined.

(** X2 on a TaskRun that failed. *)
Lemma status_follows_condition_witness :
  EStatus {| Type_ := TaskRunFinishedEventV1; EStatus := StatusError |} = StatusError <->
  Status (succeededIs "False" "Failed") = ConditionFalse.
Proof.
  apply (status_follows_condition (sampleTaskRun "False" "Failed")
           (succeededIs "False" "Failed")
           {| Type_ := TaskRunFinishedEventV1; EStatus := StatusError |}
           eq_refl eq_refl).
Defined.

(** X3 on a PipelineRun that is queued. *)
Lemma event_type_matches_kind_witness :
  Type_ {| Type_ := PipelineRunQueuedEventV1; EStatus := StatusRunning |} = NoEventType <->
  supported (TypeOf (samplePipelineRun "Unknown" "Started")) = false.
Proof.
  apply (event_type_matches_kind (samplePipelineRun "Unknown" "Started")
           {| Type_ := PipelineRunQueuedEventV1; EStatus := StatusRunning |} eq_refl).
Defined.

(** X4 on two PipelineRuns that failed for different reasons. *)
Lemma resolved_condition_ignores_reason_witness :
  getEventType (samplePipelineRun "False" "Failed") =
  getEventType (samplePipelineRun "False" "PipelineRunTimeout").
Proof.
  apply (resolved_condition_ignores_reason
           (samplePipelineRun "False" "Failed")
           (samplePipelineRun "False" "PipelineRunTimeout")
           (succeededIs "False" "Failed") (succeededIs "False" "PipelineRunTimeout"));
    [reflexivity | reflexivity | reflexivity | reflexivity | discriminate].
Defined.

(** X5 on a TaskRun the encoder refuses, and that has no condition
    either: the error is the encoder's. *)
Lemma eventFor_errors_witness :
  exists text : string,
    eventForObjectWithCondition encodeFails sdkAccepts (sampleRun TaskRun "TaskRun" []) =
      Err (SerializationError text) /\
    encodeFails (sampleRun TaskRun "TaskRun" []) = inr text.
Proof.
  destruct (eventFor_errors encodeFails sdkAccepts (sampleRun TaskRun "TaskRun" [])
              (SerializationError "json: unsupported value") eq_refl)
    as [(text & He & Hm & _) | [[He _] | [(c & _ & He & _) | [(c & _ & He & _) |
        (text & He & _)]]]]; try discriminate He.
  exists text. split; [rewrite <- He; reflexivity | exact Hm].
Defined.

(** The event built for the sample PipelineRun whose condition is false. *)
Lemma sample_pipelinerun_event :
  eventForObjectWithCondition encodeObject sdkAccepts (samplePipelineRun "False" "Failed") =
    Ok {| Created := PipelineRunEvent PipelineRunFinishedEventV1 "uid-1" "build-1"
                       "Error" "" "" {[ "pipelinerun" := "json:build-1:steps" ]};
          Subject := "build-1";
          Source := "/apis/tekton.dev/v1beta1/namespaces/ci/PipelineRun/build-1" |}.
Proof. reflexivity. Qed.

(** X6 on the sample TaskRun that succeeded. *)
Lemma envelope_components_witness :
  exists (event : Event) (etype : EventType) (encoding : string),
    eventForObjectWithCondition encodeObject sdkAccepts
      (sampleTaskRun "True" "Succeeded") = Ok event /\
    getEventType (sampleTaskRun "True" "Succeeded") = Ok etype /\
    EventTypeOf event = Type_ etype /\
    EventDataOf event = {[ "taskrun" := encoding ]}.
Proof.
  destruct (envelope_components encodeObject sdkAccepts
              (sampleTaskRun "True" "Succeeded") _ eq_refl sample_taskrun_event)
    as (etype & encoding & HT & _ & HTy & _ & HTask & _).
  eexists. exists etype, encoding.
  split; [exact sample_taskrun_event |]. split; [exact HT |]. split; [exact HTy |].
  apply HTask. reflexivity.
Defined.

(** X7 on the sample PipelineRun that failed. *)
Lemma pipelinerun_status_attribute_witness :
  exists event : Event,
    eventForObjectWithCondition encodeObject sdkAccepts
      (samplePipelineRun "False" "Failed") = Ok event /\
    EventStatusOf event = Some "Error".
Proof.
  eexists. split; [exact sample_pipelinerun_event |].
  destruct (pipelinerun_status_attribute encodeObject sdkAccepts
              (samplePipelineRun "False" "Failed") (succeededIs "False" "Failed") _
              eq_refl eq_refl sample_pipelinerun_event)
    as [[Hs _] | [[Hs _] | [_ He]]]; [discriminate Hs | discriminate Hs | exact He].
Defined.

(** X8 with the transport that acknowledges the first try, one step of
    latency. *)
Lemma acknowledged_delivery_is_silent_witness :
  exists d : Dispatch,
    SendCloudEventWithRetries encodeObject sdkAccepts (ackingContext 1)
      (WithCondition (sampleTaskRun "True" "Succeeded")) = Spawns d /\
    goroutine (run 5 d) = Exited /\
    List.filter isRecorderEvent (effects (run 5 d)) = [].
Proof.
  destruct (acknowledged_delivery_is_silent encodeObject sdkAccepts
              (ackingContext 1) (retryingClient alwaysAcks 1)
              (sampleTaskRun "True" "Succeeded") _ 5
              eq_refl sample_taskrun_event eq_refl (le_n 5))
    as (d & Hd & Hg & _ & _ & Hr).
  exists d. split; [exact Hd |]. split; [exact Hg | exact Hr].
Defined.

(** X9 with the transport that rejects every try: the record in the
    effects is there after the fourth step and not before. *)
Lemma record_only_after_failure_witness :
  0 + 4 <= 4 /\
  eventRecorder (rejectingContext 0 (Some (Recorder "events"))) = Some (Recorder "events").
Proof.
  destruct (record_only_after_failure
              (rejectingContext 0 (Some (Recorder "events")))
              (retryingClient alwaysRejects 0)
              (WithCondition (sampleTaskRun "True" "Succeeded"))
              {| Created := ZeroEvent; Subject := "build-1"; Source := "/" |} 4
              (Recorder "events") (WithCondition (sampleTaskRun "True" "Succeeded"))
              "Warning" "Cloud Event Failure" "503 unavailable")
    as (Hn & _ & Hr & _).
  - right. right. right. left. reflexivity.
  - split; [exact Hn | exact Hr].
Defined.
